(** * n8n-cli: the interactive setup front end, embedded and verified

    A shallow embedding of [n8n-cli.py].  The script is a command-line front
    end with three commands ([setup], [status], [logs]).  Everything it does
    is an effect on the terminal or on the container backend, so commands are
    embedded as computations that read the answers of the outside world from
    an oracle, log every call they make on a trace, and either return a value
    or raise a Python exception. *)

From Stdlib Require Import Ascii.
From stdpp Require Import base strings list gmap.

Local Open Scope string_scope.
Local Open Scope Z_scope.
Local Open Scope list_scope.

(** ** Python values *)

(** Python [str] values are Rocq strings; a character outside ASCII is kept as
    the bytes of its UTF-8 encoding. *)

Definition LF : string := String (ascii_of_nat 10) EmptyString.

(** Truth value of a string, of a list and of an optional value ([None] and
    the empty container are false). *)
Definition truthy_str (s : string) : bool :=
  match s with EmptyString => false | String _ _ => true end.

Definition truthy_list {A} (l : list A) : bool :=
  match l with [] => false | _ :: _ => true end.

Definition truthy_opt {A} (truthy : A → bool) (o : option A) : bool :=
  match o with None => false | Some a => truthy a end.

(** [x in l] for a list [l] of strings: a left-to-right scan with [==]. *)
Fixpoint py_in (x : string) (l : list string) : bool :=
  match l with
  | [] => false
  | y :: l' => if String.eqb y x then true else py_in x l'
  end.

(** [sep.join(l)]. *)
Fixpoint join (sep : string) (l : list string) : string :=
  match l with
  | [] => ""
  | [x] => x
  | x :: l' => x +:+ sep +:+ join sep l'
  end.

(** ASCII white space as [str.isspace] sees it: TAB, LF, VT, FF, CR, the four
    separators FS, GS, RS, US and the space. *)
Definition py_isspace (c : ascii) : bool :=
  let n := Z.of_nat (nat_of_ascii c) in
  ((9 <=? n) && (n <=? 13)) || ((28 <=? n) && (n <=? 32)).

Fixpoint lstrip (s : string) : string :=
  match s with
  | EmptyString => EmptyString
  | String c s' => if py_isspace c then lstrip s' else s
  end.

Definition rstrip (s : string) : string :=
  String.rev (lstrip (String.rev s)).

(** [s.strip()]. *)
Definition strip (s : string) : string := rstrip (lstrip s).

(** ** Exceptions *)

Inductive exc_class :=
| BaseException | Exception | KeyboardInterrupt
| OSError | FileNotFoundError | PermissionError
| SubprocessError | CalledProcessError
| LookupError | KeyError | EOFError.

#[global] Instance exc_class_eq_dec : EqDecision exc_class.
Proof. solve_decision. Defined.

(** The classes an exception class inherits from, itself first. *)
Definition bases (c : exc_class) : list exc_class :=
  match c with
  | BaseException => [BaseException]
  | Exception => [Exception; BaseException]
  | KeyboardInterrupt => [KeyboardInterrupt; BaseException]
  | OSError => [OSError; Exception; BaseException]
  | FileNotFoundError => [FileNotFoundError; OSError; Exception; BaseException]
  | PermissionError => [PermissionError; OSError; Exception; BaseException]
  | SubprocessError => [SubprocessError; Exception; BaseException]
  | CalledProcessError =>
      [CalledProcessError; SubprocessError; Exception; BaseException]
  | LookupError => [LookupError; Exception; BaseException]
  | KeyError => [KeyError; LookupError; Exception; BaseException]
  | EOFError => [EOFError; Exception; BaseException]
  end.

Definition issubclass (c d : exc_class) : bool := bool_decide (d ∈ bases c).

(** A raised exception: its class and what [str(e)] gives. *)
Record exn := Exn { exn_class : exc_class; exn_str : string }.

Definition isinstance (e : exn) (c : exc_class) : bool :=
  issubclass (exn_class e) c.

Inductive result (A : Type) :=
| Ok (a : A)
| Raise (e : exn).
Arguments Ok {A} a.
Arguments Raise {A} e.

(** ** The outside world and the trace *)

(** What [console.print] is given. *)
Inductive renderable :=
| Markup (s : string)
| PanelMarkdown (s : string)
| Table (title : string) (columns : list string) (rows : list (list string)).

(** The calls a command makes on the terminal, the clock and the backend. *)
Inductive event :=
| ConsolePrint (r : renderable)
| CheckboxPrompt (name message : string) (choices default : list string)
| ConfirmAsk (question : string) (default : bool)
| ProgressStart
| AddTask (description : string) (total : nat)
| UpdateTask (description : string)
| AdvanceTask
| ProgressStop
| Sleep (milliseconds : nat)
| SubprocessRun (cmd : list string) (capture_output check : bool).

(** How the backend process ends: it ran and exited with a return code and
    an output, or [subprocess.run] raised before or while it ran. *)
Inductive process_outcome :=
| Exited (returncode : Z) (stdout : string)
| RunRaises (e : exn).

(** The answers of the outside world to one command invocation:
    - what [inquirer.prompt] does: it returns the answers, a dict from
      question names to the chosen list, or [None], or it raises;
    - what the user types at the confirmation: yes, no, or just Enter;
    - how the backend process ends. *)
Record world := World {
  prompt_answer : result (option (gmap string (list string)));
  confirm_input : option bool;
  backend : process_outcome
}.

(** ** Computations *)

Definition IO (A : Type) : Type := world → list event * result A.

Definition trace {A} (r : list event * result A) : list event := r.1.
Definition outcome {A} (r : list event * result A) : result A := r.2.

#[global] Instance IO_ret : MRet IO := λ A a _, ([], Ok a).

#[global] Instance IO_bind : MBind IO := λ A B k m w,
  match m w with
  | (t, Ok a) => let r := k a w in (t ++ trace r, outcome r)
  | (t, Raise e) => (t, Raise e)
  end.

Definition emit (e : event) : IO unit := λ _, ([e], Ok tt).
Definition raise {A} (e : exn) : IO A := λ _, ([], Raise e).
Definition ask {A} (f : world → A) : IO A := λ w, ([], Ok (f w)).
Definition of_result {A} (r : result A) : IO A := λ _, ([], r).

(** [try: body / except ...:]: [handlers e] is the body of the first
    [except] clause that matches [e], if one does. *)
Definition try_except {A} (body : IO A) (handlers : exn → option (IO A)) : IO A :=
  λ w,
  match body w with
  | (t, Ok a) => (t, Ok a)
  | (t, Raise e) =>
      match handlers e with
      | Some h => let r := h w in (t ++ trace r, outcome r)
      | None => (t, Raise e)
      end
  end.

(** [for x in l: body x]. *)
Fixpoint for_each {A} (l : list A) (body : A → IO unit) : IO unit :=
  match l with
  | [] => mret tt
  | x :: l' => body x ;; for_each l' body
  end.

(** ** The libraries the script calls *)

Definition console_print (s : string) : IO unit := emit (ConsolePrint (Markup s)).

(** [inquirer.prompt([inquirer.Checkbox(name, message, choices, default)])]. *)
Definition inquirer_prompt_checkbox (name message : string)
    (choices default : list string) : IO (option (gmap string (list string))) :=
  emit (CheckboxPrompt name message choices default) ;;
  r ← ask prompt_answer;
  of_result r.

(** [Confirm.ask(question, default=d)]: an empty answer is the default. *)
Definition Confirm_ask (question : string) (d : bool) : IO bool :=
  emit (ConfirmAsk question d) ;;
  i ← ask confirm_input;
  mret (default d i).

Record CompletedProcess := { returncode : Z; stdout : string }.

(** [subprocess.run(cmd, capture_output=c, text=True, check=k)]. *)
Definition subprocess_run (cmd : list string) (capture_output check : bool)
    : IO CompletedProcess :=
  emit (SubprocessRun cmd capture_output check) ;;
  b ← ask backend;
  match b with
  | Exited rc out =>
      if check && negb (rc =? 0)
      then raise (Exn CalledProcessError "non-zero exit status")
      else mret {| returncode := rc;
                   stdout := if capture_output then out else "" |}
  | RunRaises e => raise e
  end.

(** [d[k]] on a dict. *)
Definition getitem (d : gmap string (list string)) (k : string) : IO (list string) :=
  match d !! k with
  | Some v => mret v
  | None => raise (Exn KeyError ("'" +:+ k +:+ "'"))
  end.

(** ** The script *)

Definition SERVICES : list (string * string) :=
  [ ("traefik", "Reverse proxy with automatic SSL certificates");
    ("qdrant", "Vector database for AI/ML workflows");
    ("nginx", "Web server for static files and additional routing");
    ("postgres", "PostgreSQL database for n8n data persistence");
    ("monitoring", "Portainer for container management") ].

Definition keys {A B} (d : list (A * B)) : list A := d.*1.

Definition banner : string :=
  LF +:+ "# üöÄ n8n Raspberry Pi Setup" +:+ LF +:+ LF +:+
  "A comprehensive, modular setup for deploying n8n with optional services."
  +:+ LF.

Definition show_banner : IO unit := emit (ConsolePrint (PanelMarkdown banner)).

Definition show_services_table : IO unit :=
  emit (ConsolePrint
    (Table "Available Services" ["Service"; "Description"; "Status"]
       (map (λ '(service, description),
               let status := "‚úÖ Available" in
               [service; description; status]) SERVICES))).

Definition select_services : IO (list string) :=
  console_print
    (LF +:+ "[bold yellow]Select the services you want to install:[/bold yellow]") ;;
  try_except
    (answers ← inquirer_prompt_checkbox "services"
        "Choose services (use spacebar to select, enter to confirm)"
        (keys SERVICES) ["traefik"];
     match answers with
     | Some d => if bool_decide (d = ∅) then mret [] else getitem d "services"
     | None => mret []
     end)
    (λ e,
      if isinstance e Exception then Some (
        console_print ("[yellow]Interactive selection not available: "
                       +:+ exn_str e +:+ "[/yellow]") ;;
        console_print "[blue]Using default services: traefik[/blue]" ;;
        mret ["traefik"])
      else None).

Definition run_setup_with_progress (selected_services : list string)
    (debug : bool) : IO unit :=
  emit ProgressStart ;;
  emit (AddTask "Setting up services..." (length selected_services + 2)) ;;
  emit (UpdateTask "Checking dependencies...") ;;
  emit AdvanceTask ;;
  for_each selected_services (λ service,
    emit (UpdateTask ("Configuring " +:+ service +:+ "...")) ;;
    emit (Sleep 500) ;;
    emit AdvanceTask) ;;
  emit (UpdateTask "Generating configuration files...") ;;
  emit AdvanceTask ;;
  emit ProgressStop ;;
  console_print (LF +:+ "[bold green]‚úÖ Setup completed successfully![/bold green]").

(** The block of [setup] under its comment "Show access information". *)
Definition show_access_information (services : list string) : IO unit :=
  if py_in "traefik" services then
    console_print (LF +:+ "[bold green]üåê Access your services at:[/bold green]") ;;
    console_print "‚Ä¢ n8n: https://your-domain.com" ;;
    (if py_in "qdrant" services
     then console_print "‚Ä¢ Qdrant: https://qdrant.your-domain.com"
     else mret tt)
  else
    console_print (LF +:+ "[bold green]üåê Access your services at:[/bold green]") ;;
    console_print "‚Ä¢ n8n: http://localhost:5678".

Definition setup (debug : bool) (services : option (list string)) : IO unit :=
  show_banner ;;
  services ← (if negb (truthy_opt truthy_list services)
              then show_services_table ;; select_services
              else mret (default [] services));
  if negb (truthy_list services) then
    console_print "[yellow]No services selected. Exiting.[/yellow]"
  else
    console_print (LF +:+ "[bold blue]Selected services:[/bold blue] "
                   +:+ join ", " services) ;;
    (if debug
     then console_print
       "[yellow]Debug mode: Configuration will be generated but services won't start[/yellow]"
     else mret tt) ;;
    go ← (if debug then mret true else Confirm_ask "Continue with setup?" true);
    if go : bool then
      run_setup_with_progress services debug ;;
      show_access_information services
    else
      console_print "[yellow]Setup cancelled.[/yellow]".

Definition status : IO unit :=
  console_print "[bold blue]Checking service status...[/bold blue]" ;;
  try_except
    (result ← subprocess_run ["docker"; "compose"; "ps"] true true;
     if truthy_str (strip (stdout result)) then
       console_print (LF +:+ "[bold green]Running services:[/bold green]") ;;
       console_print (stdout result)
     else
       console_print "[yellow]No services are currently running.[/yellow]")
    (λ e,
      if isinstance e CalledProcessError then Some (
        console_print
          "[red]Error: Could not check service status. Is Docker running?[/red]")
      else if isinstance e FileNotFoundError then Some (
        console_print
          "[red]Error: Docker not found. Please install Docker first.[/red]")
      else None).

Definition logs (service : option string) (follow : bool) : IO unit :=
  let cmd := ["docker"; "compose"; "logs"] in
  let cmd := if follow then cmd ++ ["-f"] else cmd in
  let cmd := match service with
             | Some s => if truthy_str s then cmd ++ [s] else cmd
             | None => cmd
             end in
  try_except
    (subprocess_run cmd false true ;; mret tt)
    (λ e,
      if isinstance e CalledProcessError then Some (
        console_print ("[red]Error: Could not show logs for "
          +:+ (if truthy_opt truthy_str service then default "" service
               else "services")
          +:+ "[/red]"))
      else if isinstance e FileNotFoundError then Some (
        console_print "[red]Error: Docker not found.[/red]")
      else None).

(** The commands of the typer application and its exit code: 0 when the
    command function returns, 1 when an exception escapes it. *)
Inductive command :=
| CmdSetup (debug : bool) (services : option (list string))
| CmdStatus
| CmdLogs (service : option string) (follow : bool).

Definition run_command (c : command) : IO unit :=
  match c with
  | CmdSetup debug services => setup debug services
  | CmdStatus => status
  | CmdLogs service follow => logs service follow
  end.

Definition exit_code (r : result unit) : Z :=
  match r with Ok _ => 0 | Raise _ => 1 end.

Definition app (c : command) (w : world) : list event * Z :=
  let r := run_command c w in (trace r, exit_code (outcome r)).

(** ** Reading a trace *)

(** The descriptions the progress display was given, in order. *)
Definition step_descriptions (t : list event) : list string :=
  omap (λ e, match e with UpdateTask d => Some d | _ => None end) t.




Definition is_confirm (e : event) : bool :=
  match e with ConfirmAsk _ _ => true | _ => false end.

Definition is_prompt (e : event) : bool :=
  match e with CheckboxPrompt _ _ _ _ => true | _ => false end.

(** The events of the step runner. *)
Definition is_step (e : event) : bool :=
  match e with
  | ProgressStart | AddTask _ _ | UpdateTask _ | AdvanceTask | ProgressStop
  | Sleep _ => true
  | _ => false
  end.


(** The confirmation gate lets the workflow through: debug mode, or an
    affirmative answer, Enter standing for the default, yes. *)
Definition gate_passed (debug : bool) (w : world) : bool :=
  debug || default true (confirm_input w).

(** The selection [setup] works with: lines 119 to 121 of the script. *)
Definition chosen_services (services : option (list string)) : IO (list string) :=
  if negb (truthy_opt truthy_list services)
  then show_services_table ;; select_services
  else mret (default [] services).

(** The events of the script, named. *)
Definition banner_event : event := ConsolePrint (PanelMarkdown banner).

Definition table_event : event :=
  ConsolePrint
    (Table "Available Services" ["Service"; "Description"; "Status"]
       (map (λ '(service, description),
               [service; description; "‚úÖ Available"]) SERVICES)).

Definition select_label : event :=
  ConsolePrint (Markup
    (LF +:+ "[bold yellow]Select the services you want to install:[/bold yellow]")).

Definition prompt_event : event :=
  CheckboxPrompt "services"
    "Choose services (use spacebar to select, enter to confirm)"
    ["traefik"; "qdrant"; "nginx"; "postgres"; "monitoring"] ["traefik"].

Definition fallback_warning (e : exn) : list event :=
  [ConsolePrint (Markup ("[yellow]Interactive selection not available: "
                         +:+ exn_str e +:+ "[/yellow]"));
   ConsolePrint (Markup "[blue]Using default services: traefik[/blue]")].

Definition no_services_event : event :=
  ConsolePrint (Markup "[yellow]No services selected. Exiting.[/yellow]").

Definition cancelled_event : event :=
  ConsolePrint (Markup "[yellow]Setup cancelled.[/yellow]").

Definition confirm_event : event := ConfirmAsk "Continue with setup?" true.

Definition selected_events (debug : bool) (S : list string) : list event :=
  ConsolePrint (Markup (LF +:+ "[bold blue]Selected services:[/bold blue] "
                        +:+ join ", " S))
  :: (if debug
      then [ConsolePrint (Markup
        "[yellow]Debug mode: Configuration will be generated but services won't start[/yellow]")]
      else []).

Definition configure_events (service : string) : list event :=
  [UpdateTask ("Configuring " +:+ service +:+ "..."); Sleep 500; AdvanceTask].

Definition progress_events (S : list string) : list event :=
  [ProgressStart; AddTask "Setting up services..." (length S + 2);
   UpdateTask "Checking dependencies..."; AdvanceTask]
  ++ (S ≫= configure_events)
  ++ [UpdateTask "Generating configuration files..."; AdvanceTask; ProgressStop;
      ConsolePrint (Markup
        (LF +:+ "[bold green]‚úÖ Setup completed successfully![/bold green]"))].

Definition access_header : event :=
  ConsolePrint (Markup (LF +:+ "[bold green]üåê Access your services at:[/bold green]")).

Definition https_entry : event :=
  ConsolePrint (Markup "‚Ä¢ n8n: https://your-domain.com").

Definition qdrant_entry : event :=
  ConsolePrint (Markup "‚Ä¢ Qdrant: https://qdrant.your-domain.com").

Definition local_entry : event :=
  ConsolePrint (Markup "‚Ä¢ n8n: http://localhost:5678").

(** The rule table of the access summary, on membership. *)
Definition access_events (S : list string) : list event :=
  access_header ::
  (if decide ("traefik" ∈ S)
   then https_entry :: (if decide ("qdrant" ∈ S) then [qdrant_entry] else [])
   else [local_entry]).

Definition status_label : event :=
  ConsolePrint (Markup "[bold blue]Checking service status...[/bold blue]").

Definition status_call : event :=
  SubprocessRun ["docker"; "compose"; "ps"] true true.

Definition nothing_running : string :=
  "[yellow]No services are currently running.[/yellow]".

Definition backend_failed : string :=
  "[red]Error: Could not check service status. Is Docker running?[/red]".

Definition backend_missing : string :=
  "[red]Error: Docker not found. Please install Docker first.[/red]".


(** What the selection phase may do: print, and prompt. *)
Definition selection_event (e : event) : bool :=
  match e with
  | ConsolePrint _ | CheckboxPrompt _ _ _ _ => true
  | _ => false
  end.

#[global] Instance renderable_eq_dec : EqDecision renderable.
Proof. solve_decision. Defined.

#[global] Instance event_eq_dec : EqDecision event.
Proof. solve_decision. Defined.

(** The lines of the access summary. *)
Definition is_access (e : event) : bool :=
  bool_decide (e ∈ [access_header; https_entry; qdrant_entry; local_entry]).

(** A world to run examples in: the user aborts the prompt, presses Enter at
    the confirmation, and the backend lists nothing. *)
Definition quiet_world : world := World (Ok None) None (Exited 0 "").

(** ** More readings of a trace *)


(** How often the progress bar was advanced, and the totals it was given. *)
Definition advances (t : list event) : nat :=
  length (filter (λ e, e = AdvanceTask) t).

Definition task_totals (t : list event) : list nat :=
  omap (λ e, match e with AddTask _ n => Some n | _ => None end) t.

(** The command lines handed to the backend, in order. *)
Definition backend_calls (t : list event) : list (list string) :=
  omap (λ e, match e with SubprocessRun cmd _ _ => Some cmd | _ => None end) t.

(** The command line of [logs], written out. *)
Definition logs_cmd (service : option string) (follow : bool) : list string :=
  ["docker"; "compose"; "logs"]
  ++ (if follow then ["-f"] else [])
  ++ match service with
     | Some (String c s) => [String c s]
     | _ => []
     end.

(** What [logs] calls the service in its error line. *)
Definition logs_subject (service : option string) : string :=
  match service with
  | Some (String c s) => String c s
  | _ => "services"
  end.

(** The events of an interaction with the user. *)
Definition is_interaction (e : event) : bool := is_prompt e || is_confirm e.

(** * Properties *)

(** ** Running computations *)

Lemma run_bind {A B} (m : IO A) (k : A → IO B) (w : world) :
  (m ≫= k) w =
  match m w with
  | (t, Ok a) => (t ++ trace (k a w), outcome (k a w))
  | (t, Raise e) => (t, Raise e)
  end.
Proof. reflexivity. Qed.

Lemma run_try_except {A} (body : IO A) (handlers : exn → option (IO A)) (w : world) :
  try_except body handlers w =
  match body w with
  | (t, Ok a) => (t, Ok a)
  | (t, Raise e) =>
      match handlers e with
      | Some h => (t ++ trace (h w), outcome (h w))
      | None => (t, Raise e)
      end
  end.
Proof. reflexivity. Qed.

(** Unfolds the sequencing of a computation applied to a world, leaving
    strings and loops alone. *)
Ltac io_run :=
  repeat (rewrite ?run_bind, ?run_try_except;
          cbn -[String.append for_each join strip py_in]).

Lemma py_in_elem_of (x : string) (l : list string) : py_in x l = true ↔ x ∈ l.
Proof.
  induction l as [|y l IH]; cbn.
  - split; [discriminate | intros H; inversion H].
  - destruct (String.eqb y x) eqn:E.
    + apply String.eqb_eq in E as ->. split; [intros _; left | done].
    + apply String.eqb_neq in E. rewrite IH. split.
      * intros H. by right.
      * intros H. inversion H; subst; [done | assumption].
Qed.

Lemma py_in_decide (x : string) (l : list string) :
  py_in x l = bool_decide (x ∈ l).
Proof.
  destruct (py_in x l) eqn:E.
  - symmetry. apply bool_decide_eq_true, py_in_elem_of, E.
  - symmetry. apply bool_decide_eq_false. intros H.
    apply py_in_elem_of in H. congruence.
Qed.

Lemma truthy_list_true {A} (l : list A) : truthy_list l = true ↔ l ≠ [].
Proof. destruct l; cbn; split; done. Qed.

(** ** The step runner *)

Lemma for_each_configure (S : list string) (w : world) :
  for_each S (λ service,
    emit (UpdateTask ("Configuring " +:+ service +:+ "...")) ;;
    emit (Sleep 500) ;;
    emit AdvanceTask) w = (S ≫= configure_events, Ok tt).
Proof.
  induction S as [|s S IH]; [reflexivity|].
  cbn [for_each]. rewrite run_bind. io_run. rewrite IH. reflexivity.
Qed.

Lemma run_setup_with_progress_run (S : list string) (debug : bool) (w : world) :
  run_setup_with_progress S debug w = (progress_events S, Ok tt).
Proof.
  unfold run_setup_with_progress. io_run.
  rewrite for_each_configure. reflexivity.
Qed.

Lemma step_descriptions_app (t u : list event) :
  step_descriptions (t ++ u) = step_descriptions t ++ step_descriptions u.
Proof. apply omap_app. Qed.

Lemma step_descriptions_configure (S : list string) :
  step_descriptions (S ≫= configure_events)
  = map (λ s, "Configuring " +:+ s +:+ "...") S.
Proof.
  induction S as [|s S IH]; [reflexivity|].
  cbn -[String.append]. f_equal. exact IH.
Qed.

Lemma step_descriptions_progress (S : list string) :
  step_descriptions (progress_events S)
  = "Checking dependencies..."
    :: map (λ s, "Configuring " +:+ s +:+ "...") S
    ++ ["Generating configuration files..."].
Proof.
  unfold progress_events. rewrite !step_descriptions_app.
  rewrite step_descriptions_configure. reflexivity.
Qed.





(** ** The access summary *)

Lemma show_access_information_run (S : list string) (w : world) :
  show_access_information S w = (access_events S, Ok tt).
Proof.
  unfold show_access_information, access_events.
  rewrite !py_in_decide.
  destruct (decide ("traefik" ∈ S)) as [Ht|Ht].
  - rewrite (bool_decide_eq_true_2 _ Ht).
    destruct (decide ("qdrant" ∈ S)) as [Hq|Hq].
    + rewrite (bool_decide_eq_true_2 _ Hq). reflexivity.
    + rewrite (bool_decide_eq_false_2 _ Hq). reflexivity.
  - rewrite (bool_decide_eq_false_2 _ Ht). reflexivity.
Qed.

(** ** The selection *)

Lemma chosen_services_supplied (S : list string) (w : world) :
  S ≠ [] → chosen_services (Some S) w = ([], Ok S).
Proof. destruct S; [done | reflexivity]. Qed.

Lemma chosen_services_interactive (services : option (list string)) (w : world) :
  truthy_opt truthy_list services = false →
  chosen_services services w
  = (table_event :: trace (select_services w), outcome (select_services w)).
Proof.
  intros H. unfold chosen_services. rewrite H. cbn [negb].
  rewrite run_bind. reflexivity.
Qed.

Lemma select_services_raises (w : world) (e : exn) :
  prompt_answer w = Raise e →
  select_services w =
  if isinstance e Exception
  then (select_label :: prompt_event :: fallback_warning e, Ok ["traefik"])
  else ([select_label; prompt_event], Raise e).
Proof.
  intros H. unfold select_services, inquirer_prompt_checkbox, ask, of_result.
  io_run. rewrite H. io_run.
  destruct (isinstance e Exception); reflexivity.
Qed.

Lemma select_services_none (w : world) :
  prompt_answer w = Ok None →
  select_services w = ([select_label; prompt_event], Ok []).
Proof.
  intros H. unfold select_services, inquirer_prompt_checkbox, ask, of_result.
  io_run. rewrite H. reflexivity.
Qed.

Lemma select_services_answers (w : world) (d : gmap string (list string))
    (l : list string) :
  prompt_answer w = Ok (Some d) → d !! "services" = Some l →
  select_services w = ([select_label; prompt_event], Ok l).
Proof.
  intros H Hl. unfold select_services, inquirer_prompt_checkbox, ask, of_result.
  io_run. rewrite H. io_run.
  rewrite bool_decide_eq_false_2.
  - unfold getitem. rewrite Hl. reflexivity.
  - intros ->. by rewrite lookup_empty in Hl.
Qed.

(** ** The workflow *)

Lemma setup_run (debug : bool) (services : option (list string)) (w : world) :
  setup debug services w =
  match chosen_services services w with
  | (t, Raise e) => (banner_event :: t, Raise e)
  | (t, Ok sel) =>
      if truthy_list sel then
        (banner_event :: t ++ selected_events debug sel ++
           (if debug then progress_events sel ++ access_events sel
            else confirm_event ::
                 (if default true (confirm_input w)
                  then progress_events sel ++ access_events sel
                  else [cancelled_event])),
         Ok tt)
      else (banner_event :: t ++ [no_services_event], Ok tt)
  end.
Proof.
  unfold setup. fold (chosen_services services).
  rewrite run_bind. cbn [show_banner emit].
  rewrite run_bind.
  destruct (chosen_services services w) as [t [sel|e]]; [|reflexivity].
  destruct sel as [|s sel]; [reflexivity|].
  cbn [truthy_list negb].
  destruct debug.
  - io_run. rewrite run_setup_with_progress_run, show_access_information_run.
    cbn [trace outcome fst snd]. unfold selected_events.
    cbn -[String.append join progress_events access_events].
    reflexivity.
  - io_run. unfold Confirm_ask, ask. io_run.
    destruct (default true (confirm_input w)).
    + io_run. rewrite run_setup_with_progress_run, show_access_information_run.
      reflexivity.
    + reflexivity.
Qed.

Lemma select_services_run (w : world) :
  select_services w =
  match prompt_answer w with
  | Ok None => ([select_label; prompt_event], Ok [])
  | Ok (Some d) =>
      if bool_decide (d = ∅) then ([select_label; prompt_event], Ok [])
      else match d !! "services" with
           | Some l => ([select_label; prompt_event], Ok l)
           | None =>
               (select_label :: prompt_event
                  :: fallback_warning (Exn KeyError "'services'"),
                Ok ["traefik"])
           end
  | Raise e =>
      if isinstance e Exception
      then (select_label :: prompt_event :: fallback_warning e, Ok ["traefik"])
      else ([select_label; prompt_event], Raise e)
  end.
Proof.
  destruct (prompt_answer w) as [[d|]|e] eqn:H.
  - destruct (bool_decide (d = ∅)) eqn:Hd.
    + unfold select_services, inquirer_prompt_checkbox, ask, of_result.
      io_run. rewrite H. io_run. rewrite Hd. reflexivity.
    + destruct (d !! "services") as [l|] eqn:Hl.
      * by apply select_services_answers with d.
      * unfold select_services, inquirer_prompt_checkbox, ask, of_result.
        io_run. rewrite H. io_run. rewrite Hd.
        unfold getitem. rewrite Hl. reflexivity.
  - by apply select_services_none.
  - by apply select_services_raises.
Qed.

Lemma chosen_services_events (services : option (list string)) (w : world) :
  Forall (λ e, selection_event e = true) (trace (chosen_services services w)).
Proof.
  destruct (truthy_opt truthy_list services) eqn:H.
  - unfold chosen_services. rewrite H. constructor.
  - rewrite (chosen_services_interactive _ _ H), select_services_run.
    cbn [trace fst].
    destruct (prompt_answer w) as [[d|]|e].
    + destruct (bool_decide (d = ∅)); [repeat constructor|].
      destruct (d !! "services"); repeat constructor.
    + repeat constructor.
    + destruct (isinstance e Exception); repeat constructor.
Qed.

(** An empty selection can only come from the prompt, with no warning. *)
Lemma chosen_services_empty (services : option (list string)) (w : world)
    (t : list event) :
  chosen_services services w = (t, Ok []) →
  t = [table_event; select_label; prompt_event].
Proof.
  destruct (truthy_opt truthy_list services) eqn:H.
  - destruct services as [[|s l]|]; try discriminate H.
    unfold chosen_services. cbn. discriminate.
  - rewrite (chosen_services_interactive _ _ H), select_services_run.
    destruct (prompt_answer w) as [[d|]|e]; cbn [trace outcome fst snd].
    + destruct (bool_decide (d = ∅)); [by intros [= <-]|].
      destruct (d !! "services"); [by intros [= <- _] | discriminate].
    + by intros [= <-].
    + destruct (isinstance e Exception); discriminate.
Qed.

(** ** The backend bridge *)

Lemma status_run (w : world) :
  status w =
  match backend w with
  | Exited rc out =>
      if rc =? 0 then
        if truthy_str (strip out)
        then ([status_label; status_call;
               ConsolePrint (Markup (LF +:+ "[bold green]Running services:[/bold green]"));
               ConsolePrint (Markup out)], Ok tt)
        else ([status_label; status_call; ConsolePrint (Markup nothing_running)],
              Ok tt)
      else ([status_label; status_call; ConsolePrint (Markup backend_failed)],
            Ok tt)
  | RunRaises e =>
      if isinstance e CalledProcessError
      then ([status_label; status_call; ConsolePrint (Markup backend_failed)],
            Ok tt)
      else if isinstance e FileNotFoundError
      then ([status_label; status_call; ConsolePrint (Markup backend_missing)],
            Ok tt)
      else ([status_label; status_call], Raise e)
  end.
Proof.
  unfold status, subprocess_run, ask. io_run.
  destruct (backend w) as [rc out|e].
  - destruct (rc =? 0); io_run; [|reflexivity].
    destruct (truthy_str (strip out)); reflexivity.
  - io_run. destruct (isinstance e CalledProcessError); [reflexivity|].
    destruct (isinstance e FileNotFoundError); reflexivity.
Qed.



(** The whole run of [setup] on a supplied selection that passes the gate. *)
Lemma setup_passed (debug : bool) (S : list string) (w : world) :
  S ≠ [] → gate_passed debug w = true →
  setup debug (Some S) w
  = (banner_event :: selected_events debug S
       ++ (if debug then [] else [confirm_event])
       ++ progress_events S ++ access_events S,
     Ok tt).
Proof.
  intros HS Hgate.
  rewrite setup_run, (chosen_services_supplied _ _ HS).
  rewrite (proj2 (truthy_list_true S) HS), app_nil_l.
  unfold gate_passed in Hgate. destruct debug; cbn [orb] in Hgate.
  - reflexivity.
  - rewrite Hgate. reflexivity.
Qed.

(** ** The supplied selection (C1) *)




(** ** The step runner (C2) *)



(** ** Exit codes (C3) *)



(** ** The access summary (C4, C9) *)

(** C4: the access summary follows the rule table.  With "traefik" selected
    the first entry is the HTTPS URL of the domain, followed by the qdrant
    subdomain entry when "qdrant" is selected too; without "traefik" the
    summary is exactly the local HTTP entry on port 5678. *)
Theorem access_info_rule_table (S : list string) (w : world) :
  outcome (show_access_information S w) = Ok tt ∧
  trace (show_access_information S w)
  = access_header ::
    (if decide ("traefik" ∈ S)
     then https_entry :: (if decide ("qdrant" ∈ S) then [qdrant_entry] else [])
     else [local_entry]) ∧
  trace (show_access_information ["traefik"; "qdrant"] w)
  = [access_header; https_entry; qdrant_entry] ∧
  trace (show_access_information ["postgres"] w)
  = [access_header; local_entry].
Proof.
  rewrite show_access_information_run. split_and!; reflexivity.
Qed.

(** The summary closes the trace of [setup] once the gate is passed. *)
Lemma setup_ends_with_access_information
    (debug : bool) (S : list string) (w : world) :
  S ≠ [] → gate_passed debug w = true →
  ∃ before,
    trace (setup debug (Some S) w)
    = before ++ progress_events S ++ trace (show_access_information S w).
Proof.
  intros HS Hgate. rewrite (setup_passed _ _ _ HS Hgate).
  rewrite show_access_information_run. cbn [trace fst].
  exists (banner_event :: selected_events debug S
          ++ (if debug then [] else [confirm_event])).
  by rewrite <- app_comm_cons, <- app_assoc.
Qed.

(** C9: the access summary is a pure function of the selection, read as a
    set.  Two selections with the same members give the same ordered output,
    whatever the order and the repetitions of the ids and whatever the outside
    world answers; the summary only prints. *)
Theorem access_info_is_pure (S1 S2 : list string) (w1 w2 : world) :
  (∀ x, x ∈ S1 ↔ x ∈ S2) →
  show_access_information S1 w1 = show_access_information S2 w2 ∧
  Forall (λ e, selection_event e = true ∧ is_prompt e = false)
    (trace (show_access_information S1 w1)).
Proof.
  intros Hmem. rewrite !show_access_information_run. split.
  - f_equal. unfold access_events.
    pose proof (Hmem "traefik") as Ht. pose proof (Hmem "qdrant") as Hq.
    repeat case_decide; try reflexivity; tauto.
  - cbn [trace fst]. unfold access_events.
    repeat case_decide; repeat constructor.
Qed.

Lemma access_info_is_pure_witness :
  show_access_information ["traefik"; "qdrant"] quiet_world
  = show_access_information ["qdrant"; "traefik"; "qdrant"]
      (World (Raise (Exn EOFError "")) (Some false) (Exited 1 "x")) ∧
  Forall (λ e, selection_event e = true ∧ is_prompt e = false)
    (trace (show_access_information ["traefik"; "qdrant"] quiet_world)).
Proof.
  apply (access_info_is_pure ["traefik"; "qdrant"] ["qdrant"; "traefik"; "qdrant"]).
  intros x. rewrite !elem_of_cons, !elem_of_nil. tauto.
Defined.

(** ** The status query (C5) *)

(** C5: [status] takes an empty output of the backend (or one of white space
    only) for "nothing running", which is no error, and tells the two error
    kinds apart: a missing backend binary and a backend that exits with a
    failure status each get a message of their own, and the three messages
    differ. *)
Theorem status_distinguishes_outcomes
    (p : result (option (gmap string (list string)))) (c : option bool)
    (blank out : string) (rc : Z) (e : exn) :
  strip blank = "" →
  rc ≠ 0 →
  exn_class e = FileNotFoundError →
  status (World p c (Exited 0 ""))
  = ([status_label; status_call; ConsolePrint (Markup nothing_running)], Ok tt) ∧
  status (World p c (Exited 0 blank))
  = ([status_label; status_call; ConsolePrint (Markup nothing_running)], Ok tt) ∧
  status (World p c (RunRaises e))
  = ([status_label; status_call; ConsolePrint (Markup backend_missing)], Ok tt) ∧
  status (World p c (Exited rc out))
  = ([status_label; status_call; ConsolePrint (Markup backend_failed)], Ok tt) ∧
  nothing_running ≠ backend_missing ∧
  nothing_running ≠ backend_failed ∧
  backend_missing ≠ backend_failed.
Proof.
  intros Hblank Hrc He. rewrite !status_run. cbn [backend].
  split_and!; try discriminate.
  - reflexivity.
  - change (0 =? 0) with true. cbn match. by rewrite Hblank.
  - unfold isinstance. rewrite He. reflexivity.
  - apply Z.eqb_neq in Hrc. by rewrite Hrc.
Qed.

Lemma status_distinguishes_outcomes_witness :
  status (World (Ok None) None (Exited 0 ""))
  = ([status_label; status_call; ConsolePrint (Markup nothing_running)], Ok tt) ∧
  status (World (Ok None) None (Exited 0 (" " +:+ LF)))
  = ([status_label; status_call; ConsolePrint (Markup nothing_running)], Ok tt) ∧
  status (World (Ok None) None
            (RunRaises (Exn FileNotFoundError "No such file or directory: 'docker'")))
  = ([status_label; status_call; ConsolePrint (Markup backend_missing)], Ok tt) ∧
  status (World (Ok None) None (Exited 1 "no configuration file provided"))
  = ([status_label; status_call; ConsolePrint (Markup backend_failed)], Ok tt) ∧
  nothing_running ≠ backend_missing ∧
  nothing_running ≠ backend_failed ∧
  backend_missing ≠ backend_failed.
Proof.
  apply (status_distinguishes_outcomes (Ok None) None (" " +:+ LF)
           "no configuration file provided" 1
           (Exn FileNotFoundError "No such file or directory: 'docker'")).
  - reflexivity.
  - discriminate.
  - reflexivity.
Defined.

(** ** The selection prompt (C6, C10) *)



(** C10: when the prompt completes with no answer object, [select_services]
    returns the empty list, with no warning and no default, and [setup] then
    reports that no services were selected and returns: no confirmation, no
    step, no access summary. *)
Theorem aborted_prompt_selects_nothing
    (debug : bool) (services : option (list string)) (w : world) :
  prompt_answer w = Ok None →
  truthy_opt truthy_list services = false →
  select_services w = ([select_label; prompt_event], Ok []) ∧
  setup debug services w
  = ([banner_event; table_event; select_label; prompt_event; no_services_event],
     Ok tt).
Proof.
  intros H Hs. split; [by apply select_services_none|].
  rewrite setup_run, (chosen_services_interactive _ _ Hs).
  rewrite (select_services_none _ H). reflexivity.
Qed.

Lemma aborted_prompt_selects_nothing_witness :
  select_services quiet_world = ([select_label; prompt_event], Ok []) ∧
  setup false None quiet_world
  = ([banner_event; table_event; select_label; prompt_event; no_services_event],
     Ok tt).
Proof.
  apply (aborted_prompt_selects_nothing false None quiet_world); reflexivity.
Defined.

(** ** The confirmation gate (C7) *)



(** ** The empty selection (C8) *)

(** C8: on the empty selection [setup] reports that no services were
    selected and returns: it asks for no confirmation, runs no step and
    prints no access information. *)
Theorem empty_selection_short_circuits
    (debug : bool) (services : option (list string)) (w : world)
    (t : list event) :
  chosen_services services w = (t, Ok []) →
  setup debug services w
  = ([banner_event; table_event; select_label; prompt_event; no_services_event],
     Ok tt) ∧
  Forall (λ e, is_confirm e = false ∧ is_step e = false ∧ is_access e = false)
    (trace (setup debug services w)).
Proof.
  intros H. pose proof (chosen_services_empty _ _ _ H) as ->.
  rewrite setup_run, H. cbn [truthy_list trace fst app].
  split; [reflexivity|]. repeat constructor.
Qed.

Lemma empty_selection_short_circuits_witness :
  setup true (Some [])
    (World (Ok (Some {["services" := []]})) None (Exited 0 ""))
  = ([banner_event; table_event; select_label; prompt_event; no_services_event],
     Ok tt) ∧
  Forall (λ e, is_confirm e = false ∧ is_step e = false ∧ is_access e = false)
    (trace (setup true (Some [])
              (World (Ok (Some {["services" := []]})) None (Exited 0 "")))).
Proof.
  apply (empty_selection_short_circuits true (Some [])
           (World (Ok (Some {["services" := []]})) None (Exited 0 ""))
           [table_event; select_label; prompt_event]).
  reflexivity.
Defined.

(** * Further properties of the script *)

(** ** White space *)






(** ** The backend bridge, in full *)

Lemma logs_cmd_eq (service : option string) (follow : bool) :
  (let cmd := ["docker"; "compose"; "logs"] in
   let cmd := if follow then cmd ++ ["-f"] else cmd in
   match service with
   | Some s => if truthy_str s then cmd ++ [s] else cmd
   | None => cmd
   end) = logs_cmd service follow.
Proof. destruct follow, service as [[|c s]|]; reflexivity. Qed.

Lemma logs_run (service : option string) (follow : bool) (w : world) :
  logs service follow w =
  let call := SubprocessRun (logs_cmd service follow) false true in
  let failed :=
    ConsolePrint (Markup ("[red]Error: Could not show logs for "
                          +:+ logs_subject service +:+ "[/red]")) in
  match backend w with
  | Exited rc _ => if rc =? 0 then ([call], Ok tt) else ([call; failed], Ok tt)
  | RunRaises e =>
      if isinstance e CalledProcessError then ([call; failed], Ok tt)
      else if isinstance e FileNotFoundError
      then ([call; ConsolePrint (Markup "[red]Error: Docker not found.[/red]")],
            Ok tt)
      else ([call], Raise e)
  end.
Proof.
  unfold logs. rewrite logs_cmd_eq.
  replace (if truthy_opt truthy_str service then default "" service
           else "services") with (logs_subject service)
    by (by destruct service as [[|c s]|]).
  unfold subprocess_run, ask. io_run.
  destruct (backend w) as [rc out|e].
  - destruct (rc =? 0); reflexivity.
  - io_run. destruct (isinstance e CalledProcessError); [reflexivity|].
    destruct (isinstance e FileNotFoundError); reflexivity.
Qed.

(** X1: [logs] hands the backend exactly one command line: "docker compose
    logs", then "-f" when following, then the service name when one is given
    and is not the empty string.  An empty name is the same as none, and the
    name is passed on as it is. *)
Theorem logs_command_line (service : option string) (follow : bool) (w : world) :
  backend_calls (trace (logs service follow w))
  = [ ["docker"; "compose"; "logs"]
      ++ (if follow then ["-f"] else [])
      ++ match service with
         | Some s => if bool_decide (s = "") then [] else [s]
         | None => []
         end ] ∧
  logs (Some "") follow w = logs None follow w.
Proof.
  rewrite !logs_run. split; [|reflexivity].
  replace (match service with
           | Some s => if bool_decide (s = "") then [] else [s]
           | None => []
           end)
    with (match service with Some (String c s) => [String c s] | _ => [] end)
    by (by destruct service as [[|c s]|]).
  fold (logs_cmd service follow). cbn zeta.
  destruct (backend w) as [rc out|e].
  - destruct (rc =? 0); reflexivity.
  - destruct (isinstance e CalledProcessError); [reflexivity|].
    destruct (isinstance e FileNotFoundError); reflexivity.
Qed.



(** X3: an exception of the backend call that is neither a
    [CalledProcessError] nor a [FileNotFoundError] (a [PermissionError], the
    [KeyboardInterrupt] that ends [logs -f]) is not caught: [status] and
    [logs] print no error line and the very exception escapes. *)
Theorem other_backend_exceptions_escape
    (w : world) (e : exn) (service : option string) (follow : bool) :
  backend w = RunRaises e →
  isinstance e CalledProcessError = false →
  isinstance e FileNotFoundError = false →
  status w = ([status_label; status_call], Raise e) ∧
  logs service follow w
  = ([SubprocessRun (logs_cmd service follow) false true], Raise e).
Proof.
  intros Hb H1 H2. rewrite status_run, logs_run, Hb, H1, H2. done.
Qed.

Lemma other_backend_exceptions_escape_witness :
  status (World (Ok None) None (RunRaises (Exn KeyboardInterrupt "")))
  = ([status_label; status_call], Raise (Exn KeyboardInterrupt "")) ∧
  logs None true (World (Ok None) None (RunRaises (Exn KeyboardInterrupt "")))
  = ([SubprocessRun (logs_cmd None true) false true],
     Raise (Exn KeyboardInterrupt "")).
Proof.
  apply (other_backend_exceptions_escape
           (World (Ok None) None (RunRaises (Exn KeyboardInterrupt "")))
           (Exn KeyboardInterrupt "") None true); reflexivity.
Defined.


(** ** The progress bar *)

Lemma advances_app (t u : list event) :
  advances (t ++ u) = (advances t + advances u)%nat.
Proof. unfold advances. by rewrite filter_app, length_app. Qed.

Lemma advances_configure (S : list string) :
  advances (S ≫= configure_events) = length S.
Proof.
  induction S as [|s S IH]; [reflexivity|].
  change ((s :: S) ≫= configure_events)
    with (configure_events s ++ (S ≫= configure_events)).
  rewrite advances_app, IH. reflexivity.
Qed.

Lemma task_totals_app (t u : list event) :
  task_totals (t ++ u) = task_totals t ++ task_totals u.
Proof. apply omap_app. Qed.

Lemma task_totals_configure (S : list string) :
  task_totals (S ≫= configure_events) = [].
Proof. induction S as [|s S IH]; [reflexivity | exact IH]. Qed.

(** X5: the progress bar always fills up.  The step runner creates one task,
    whose total is the number of selected services plus two, and advances it
    exactly that many times, once after each step description. *)
Theorem progress_bar_completes (S : list string) (debug : bool) (w : world) :
  task_totals (trace (run_setup_with_progress S debug w))
  = [advances (trace (run_setup_with_progress S debug w))] ∧
  advances (trace (run_setup_with_progress S debug w)) = (length S + 2)%nat ∧
  length (step_descriptions (trace (run_setup_with_progress S debug w)))
  = advances (trace (run_setup_with_progress S debug w)).
Proof.
  rewrite run_setup_with_progress_run. cbn [trace fst].
  assert (Hadv : advances (progress_events S) = (length S + 2)%nat).
  { unfold progress_events. rewrite !advances_app, advances_configure.
    repeat match goal with
    | |- context [advances (?e :: ?t)] =>
        let n := eval vm_compute in (advances (e :: t)) in
        change (advances (e :: t)) with n
    end.
    lia. }
  split_and!.
  - rewrite Hadv. unfold progress_events.
    rewrite !task_totals_app, task_totals_configure. reflexivity.
  - exact Hadv.
  - rewrite Hadv, step_descriptions_progress.
    cbn [length]. rewrite length_app, length_map. cbn [length]. lia.
Qed.

(** ** The selection prompt, the other answers *)

(** X6: when the answers of the prompt lack the key "services",
    [select_services] returns the empty list for an empty dict, which counts
    as no answer, and for any other dict takes the lookup error for a prompt
    that cannot run: it warns, naming the key, and returns the default. *)
Theorem missing_answer_key (w : world) (d : gmap string (list string)) :
  prompt_answer w = Ok (Some d) →
  d !! "services" = None →
  select_services w
  = if bool_decide (d = ∅)
    then ([select_label; prompt_event], Ok [])
    else ([select_label; prompt_event;
           ConsolePrint (Markup
             "[yellow]Interactive selection not available: 'services'[/yellow]");
           ConsolePrint (Markup "[blue]Using default services: traefik[/blue]")],
          Ok ["traefik"]).
Proof.
  intros H Hd. rewrite select_services_run, H, Hd. reflexivity.
Qed.

Lemma missing_answer_key_witness :
  select_services
    (World (Ok (Some {["service" := ["nginx"]]})) None (Exited 0 ""))
  = if bool_decide (({["service" := ["nginx"]]} : gmap string (list string)) = ∅)
    then ([select_label; prompt_event], Ok [])
    else ([select_label; prompt_event;
           ConsolePrint (Markup
             "[yellow]Interactive selection not available: 'services'[/yellow]");
           ConsolePrint (Markup "[blue]Using default services: traefik[/blue]")],
          Ok ["traefik"]).
Proof.
  apply (missing_answer_key
           (World (Ok (Some {["service" := ["nginx"]]})) None (Exited 0 ""))
           {["service" := ["nginx"]]}); reflexivity.
Defined.



(** ** The workflow, composed *)



Lemma backend_calls_app (t u : list event) :
  backend_calls (t ++ u) = backend_calls t ++ backend_calls u.
Proof. apply omap_app. Qed.

Lemma backend_calls_configure (S : list string) :
  backend_calls (S ≫= configure_events) = [].
Proof. induction S as [|s S IH]; [reflexivity | exact IH]. Qed.

Lemma backend_calls_selection (t : list event) :
  Forall (λ e, selection_event e = true) t → backend_calls t = [].
Proof.
  induction 1 as [|e t He _ IH]; [reflexivity|].
  destruct e; try discriminate He; exact IH.
Qed.

Lemma backend_calls_progress (S : list string) :
  backend_calls (progress_events S) = [].
Proof.
  unfold progress_events.
  by rewrite !backend_calls_app, backend_calls_configure.
Qed.

Lemma backend_calls_access (S : list string) :
  backend_calls (access_events S) = [].
Proof. unfold access_events. by repeat case_decide. Qed.

(** X9: each command reads only its own part of the outside world.  [setup]
    never calls the backend, and its run does not depend on how the backend
    would end; [status] and [logs] never prompt or ask, and their runs depend
    on the backend alone. *)
Theorem commands_keep_to_their_inputs
    (p p' : result (option (gmap string (list string)))) (c c' : option bool)
    (b b' : process_outcome)
    (debug : bool) (services : option (list string))
    (service : option string) (follow : bool) :
  setup debug services (World p c b) = setup debug services (World p c b') ∧
  backend_calls (trace (setup debug services (World p c b))) = [] ∧
  status (World p c b) = status (World p' c' b) ∧
  logs service follow (World p c b) = logs service follow (World p' c' b) ∧
  Forall (λ e, is_interaction e = false) (trace (status (World p c b))) ∧
  Forall (λ e, is_interaction e = false)
    (trace (logs service follow (World p c b))).
Proof.
  assert (Hchosen : ∀ b0,
    chosen_services services (World p c b0)
    = chosen_services services (World p c b)).
  { intros b0. destruct (truthy_opt truthy_list services) eqn:Hs.
    - unfold chosen_services. by rewrite Hs.
    - by rewrite !(chosen_services_interactive _ _ Hs), !select_services_run. }
  split_and!.
  - by rewrite !setup_run, (Hchosen b').
  - rewrite setup_run.
    pose proof (chosen_services_events services (World p c b)) as Ht.
    destruct (chosen_services services (World p c b)) as [t [sel|e]];
      cbn [trace fst] in Ht |- *; apply backend_calls_selection in Ht.
    + destruct (truthy_list sel); cbn [trace fst];
        change (banner_event :: ?l) with ([banner_event] ++ l);
        [|by rewrite !backend_calls_app, Ht].
      cbn [confirm_input]. destruct debug.
      * by rewrite !backend_calls_app, Ht, backend_calls_progress,
          backend_calls_access.
      * change (confirm_event :: ?l) with ([confirm_event] ++ l).
        destruct (default true c).
        -- by rewrite !backend_calls_app, Ht, backend_calls_progress,
             backend_calls_access.
        -- by rewrite !backend_calls_app, Ht.
    + exact Ht.
  - by rewrite !status_run.
  - by rewrite !logs_run.
  - rewrite status_run. cbn [backend].
    destruct b as [rc out|e].
    + destruct (rc =? 0); [destruct (truthy_str (strip out))|];
        repeat constructor.
    + destruct (isinstance e CalledProcessError); [repeat constructor|].
      destruct (isinstance e FileNotFoundError); repeat constructor.
  - rewrite logs_run. cbn [backend]. cbn zeta.
    destruct b as [rc out|e].
    + destruct (rc =? 0); repeat constructor.
    + destruct (isinstance e CalledProcessError); [repeat constructor|].
      destruct (isinstance e FileNotFoundError); repeat constructor.
Qed.

(** X10: [setup --debug] with a non-empty supplied selection is not
    interactive at all: it neither prompts nor asks, and its whole run is the
    same whatever the outside world would answer. *)
Theorem debug_setup_is_unattended (S : list string) (w w' : world) :
  S ≠ [] →
  setup true (Some S) w = setup true (Some S) w' ∧
  Forall (λ e, is_interaction e = false) (trace (setup true (Some S) w)).
Proof.
  intros HS.
  rewrite !(setup_passed true S _ HS eq_refl). split; [reflexivity|].
  cbn [trace fst]. rewrite Forall_cons, !Forall_app. split_and!.
  - done.
  - repeat constructor.
  - constructor.
  - unfold progress_events. rewrite !Forall_app. split_and!;
      [repeat constructor | | repeat constructor].
    apply Forall_bind, Forall_forall. intros s _. repeat constructor.
  - unfold access_events. repeat case_decide; repeat constructor.
Qed.

Lemma debug_setup_is_unattended_witness :
  setup true (Some ["postgres"]) quiet_world
  = setup true (Some ["postgres"])
      (World (Raise (Exn EOFError "")) (Some false)
         (RunRaises (Exn FileNotFoundError ""))) ∧
  Forall (λ e, is_interaction e = false)
    (trace (setup true (Some ["postgres"]) quiet_world)).
Proof.
  apply (debug_setup_is_unattended ["postgres"]). discriminate.
Defined.

(** X11: only "traefik" and "qdrant" matter to the access summary: adding
    any other id to the selection, known to the catalog or not, changes
    nothing of what is printed. *)
Theorem access_info_ignores_other_services
    (x : string) (S : list string) (w : world) :
  x ≠ "traefik" →
  x ≠ "qdrant" →
  show_access_information (x :: S) w = show_access_information S w.
Proof.
  intros Ht Hq. rewrite !show_access_information_run. f_equal.
  unfold access_events.
  repeat case_decide; try reflexivity;
    repeat match goal with
    | H : _ ∈ _ :: _ |- _ => apply elem_of_cons in H as [?|?]
    | H : ¬ (_ ∈ _ :: _) |- _ => rewrite elem_of_cons in H
    end; try congruence; tauto.
Qed.

Lemma access_info_ignores_other_services_witness :
  show_access_information ("monitoring" :: ["traefik"]) quiet_world
  = show_access_information ["traefik"] quiet_world.
Proof.
  apply (access_info_ignores_other_services "monitoring" ["traefik"]);
    discriminate.
Defined.
